(** * Account REST service: the request handlers of [service/routes.py]

    The handlers are embedded as computations in a small state-and-exception
    monad over the account table.  The entity class ([service/models.py]),
    the error handlers ([service/common/error_handlers.py]) and the status
    table ([service/common/status.py]) are collaborators of the routes; they
    are modelled in their own modules below. *)

From stdpp Require Import gmap strings list fin_maps pretty.

Open Scope Z_scope.

(** ** JSON values

    What [request.get_json()] returns and what [jsonify] is given: a Python
    value built from [None], booleans, integers, strings, lists and dicts. *)

#[warnings="-register-all"]
Inductive json : Type :=
  | JNull
  | JBool (b : bool)
  | JInt (z : Z)
  | JString (s : string)
  | JArray (l : list json)
  | JObject (m : gmap string json).

(** ** Exceptions a handler can raise *)

Inductive exn : Type :=
  | DataValidationError (message : string)
  | TypeError (message : string)
  | HTTPException (code : Z) (description : string)
  | PyException (message : string).

(** ** Responses *)

Inductive Body : Type :=
  | Text (s : string)
  | Json (j : json).

Record Response : Type := mkResponse {
  status_code : Z;
  body : Body;
  response_headers : list (string * string)
}.

(** A view function returns a [(body, status)] pair; Flask turns it into a
    response without extra headers. *)
Definition respond (r : Body * Z) : Response :=
  {| status_code := r.2; body := r.1; response_headers := [] |}.

Definition make_response (b : Body) (code : Z) (hs : list (string * string)) : Response :=
  {| status_code := code; body := b; response_headers := hs |}.

Definition jsonify (j : json) : Body := Json j.

(** ** The date library

    [datetime.date] is used through [isoformat] and [fromisoformat] only; the
    development is parametric in it. *)

Class DateLib : Type := {
  date : Type;
  isoformat : date → string;
  fromisoformat : string → option date
}.

(** ** Requests

    The parts of Flask's request context the handlers read: the headers, the
    root URL used by [url_for(..., _external=True)], the outcome of
    [request.get_json()] (a value, or the exception the framework raises for
    this request), and the server's date while the request is handled.
    Header names are looked up as the framework normalises them. *)

Record Request `{DateLib} : Type := mkRequest {
  headers : gmap string string;
  url_root : string;
  json_payload : exn + json;
  today : date
}.

(** ** HTTP status codes *)

Module status.

(** Modelled from the spec: [service/common/status.py] is not part of the
    sources at hand; the codes are the ones the specification's endpoint
    table names for each outcome. *)
Definition HTTP_200_OK : Z := 200.
Definition HTTP_201_CREATED : Z := 201.
Definition HTTP_204_NO_CONTENT : Z := 204.
Definition HTTP_400_BAD_REQUEST : Z := 400.
Definition HTTP_404_NOT_FOUND : Z := 404.
Definition HTTP_415_UNSUPPORTED_MEDIA_TYPE : Z := 415.
Definition HTTP_500_INTERNAL_SERVER_ERROR : Z := 500.

End status.

(** ** The handler monad

    A computation reads and writes the account table and either returns a
    value or raises.  A raise keeps the table as it was at that point: every
    gateway operation commits on its own. *)

Definition Handler (S A : Type) : Type := S → S * (exn + A).

Definition ret {S A} (a : A) : Handler S A := λ st, (st, inr a).

Definition bind {S A B} (m : Handler S A) (k : A → Handler S B) : Handler S B :=
  λ st, match m st with
        | (st', inl e) => (st', inl e)
        | (st', inr a) => k a st'
        end.

Definition raise {S A} (e : exn) : Handler S A := λ st, (st, inl e).

(** Lifts a pure computation that may raise. *)
Definition lift {S A} (r : exn + A) : Handler S A := λ st, (st, r).

Definition get_state {S} : Handler S S := λ st, (st, inr st).

Definition put_state {S} (st' : S) : Handler S unit := λ _, (st', inr tt).

(** Sequencing of pure computations that may raise. *)
Definition and_then {A B} (r : exn + A) (k : A → exn + B) : exn + B :=
  match r with
  | inl e => inl e
  | inr a => k a
  end.

#[global] Instance raising_bind : MBind (sum exn) := λ A B k r, @and_then A B r k.
#[global] Instance Handler_ret {S} : MRet (Handler S) := λ A, @ret S A.
#[global] Instance Handler_bind {S} : MBind (Handler S) := λ A B k m, @bind S A B m k.

(** ** The Account entity and its persistence gateway *)

Module Account.
Section entity.
Context `{DateLib}.

(** The in-memory entity.  [id] is [None] until the gateway assigns one. *)
Record t : Type := mk {
  id : option Z;
  name : string;
  email : string;
  address : string;
  phone_number : string;
  date_joined : date
}.

(** The persisted row: five scalar columns; the primary key is the key of
    the table. *)
Record Row : Type := mkRow {
  row_name : string;
  row_email : string;
  row_address : string;
  row_phone_number : string;
  row_date_joined : date
}.

(** A statement the gateway has committed, with the primary key it
    concerned. *)
Inductive Mutation : Type :=
  | Inserted (k : Z)
  | Updated (k : Z)
  | Deleted (k : Z).

(** The backing store: the account table, the sequence the primary keys are
    drawn from, and the journal of the statements committed so far (most
    recent first).  The journal makes "no mutation was issued" observable
    even where a statement would leave the table as it is. *)
Record Store : Type := mkStore {
  rows : gmap Z Row;
  next_id : Z;
  journal : list Mutation
}.

(** The empty table; the first key assigned is 1, so 0 is never assigned. *)
Definition empty_store : Store := {| rows := ∅; next_id := 1; journal := [] |}.

Definition row_of (a : t) : Row :=
  {| row_name := name a; row_email := email a; row_address := address a;
     row_phone_number := phone_number a; row_date_joined := date_joined a |}.

Definition entity_of (k : Z) (r : Row) : t :=
  {| id := Some k; name := row_name r; email := row_email r;
     address := row_address r; phone_number := row_phone_number r;
     date_joined := row_date_joined r |}.

(** [Account()]: an entity no field of which has been populated yet. *)
Definition new (today : date) : t :=
  {| id := None; name := ""; email := ""; address := ""; phone_number := "";
     date_joined := today |}.

(** Modelled from the spec: the required text fields of a representation.
    A missing key is a validation error, and so is a value that is not
    text (fields must be present and of the correct type). *)
Definition required_text (m : gmap string json) (key : string) : exn + string :=
  match m !! key with
  | None => inl (DataValidationError ("Invalid Account: missing " +:+ key))
  | Some (JString s) => inr s
  | Some _ => inl (DataValidationError ("Invalid Account: bad type for " +:+ key))
  end.

(** Modelled from the spec: [date_joined] is an ISO date string and defaults
    to the current date when omitted. *)
Definition optional_date (m : gmap string json) (today : date) : exn + date :=
  match m !! "date_joined" with
  | None => inr today
  | Some (JString s) =>
      match fromisoformat s with
      | Some d => inr d
      | None => inl (DataValidationError "Invalid Account: bad date_joined")
      end
  | Some _ => inl (DataValidationError "Invalid Account: bad type for date_joined")
  end.

(** Modelled from the spec: an [id] in the input is accepted as it is, not
    checked against the table; without one the entity keeps the id it has. *)
Definition optional_id (m : gmap string json) (self_id : option Z) : exn + option Z :=
  match m !! "id" with
  | None => inr self_id
  | Some JNull => inr None
  | Some (JInt z) => inr (Some z)
  | Some _ => inl (DataValidationError "Invalid Account: bad type for id")
  end.

(** Modelled from the spec: [Account.deserialize] of [service/models.py],
    which is not part of the sources at hand.  It fails with a validation
    error when a required key (name, email, address, phone_number) is
    missing, with a type error when the input is not a mapping, and
    otherwise populates all fields of the entity it is called on. *)
Definition deserialize (self : t) (today : date) (data : json) : exn + t :=
  match data with
  | JObject m =>
      n ← required_text m "name";
      e ← required_text m "email";
      a ← required_text m "address";
      p ← required_text m "phone_number";
      d ← optional_date m today;
      i ← optional_id m (id self);
      inr {| id := i; name := n; email := e; address := a;
             phone_number := p; date_joined := d |}
  | _ => inl (TypeError "Invalid Account: body of request contained bad or no data")
  end.

(** Modelled from the spec: [Account.serialize]: a mapping with all fields,
    [date_joined] as an ISO date string, no field omitted. *)
Definition serialize (self : t) : json :=
  JObject (list_to_map [
    ("id", match id self with Some k => JInt k | None => JNull end);
    ("name", JString (name self));
    ("email", JString (email self));
    ("address", JString (address self));
    ("phone_number", JString (phone_number self));
    ("date_joined", JString (isoformat (date_joined self)))
  ]).

(** Modelled from the spec: [create] inserts a new row and assigns the
    generated id back onto the entity; an id given in the input is ignored. *)
Definition create (self : t) : Handler Store t :=
  st ← get_state;
  let k := next_id st in
  put_state {| rows := <[k := row_of self]> (rows st); next_id := k + 1;
               journal := Inserted k :: journal st |} ;;
  mret {| id := Some k; name := name self; email := email self;
          address := address self; phone_number := phone_number self;
          date_joined := date_joined self |}.

(** Modelled from the spec: [find] is a single-row lookup, absent (not an
    error) when no row matches. *)
Definition find (by_id : Z) : Handler Store (option t) :=
  st ← get_state;
  mret (entity_of by_id <$> rows st !! by_id).

(** Modelled from the spec: [all] returns every row. *)
Definition all : Handler Store (list t) :=
  st ← get_state;
  mret ((λ kr : Z * Row, entity_of kr.1 kr.2) <$> map_to_list (rows st)).

(** Modelled from the spec: [update] needs the id to be set and a matching
    row to exist; it persists the in-memory fields as a full replace. *)
Definition update (self : t) : Handler Store unit :=
  st ← get_state;
  match id self with
  | None => raise (PyException "update of an entity without an id")
  | Some k =>
      match rows st !! k with
      | None => raise (PyException "no row matches the entity")
      | Some _ =>
          put_state {| rows := <[k := row_of self]> (rows st); next_id := next_id st;
                       journal := Updated k :: journal st |}
      end
  end.

(** Modelled from the spec: [delete] removes the row matching the id, and
    is a no-op when there is none. *)
Definition delete (self : t) : Handler Store unit :=
  st ← get_state;
  match id self with
  | None => mret tt
  | Some k =>
      put_state {| rows := base.delete k (rows st); next_id := next_id st;
                   journal := Deleted k :: journal st |}
  end.

End entity.
End Account.

(** ** The error translator *)

Module error_handlers.

(** Modelled from the spec: the body of a structured error response: the
    machine status, a short error label and a human message. *)
Definition error_body (code : Z) (label message : string) : json :=
  JObject (list_to_map [
    ("status", JInt code);
    ("error", JString label);
    ("message", JString message)
  ]).

(** Modelled from the spec: [not_found] of
    [service/common/error_handlers.py], which is not part of the sources at
    hand: a 404 body carrying the detail. *)
Definition not_found (error : string) : Body * Z :=
  (jsonify (error_body status.HTTP_404_NOT_FOUND "Not Found" error),
   status.HTTP_404_NOT_FOUND).

Definition bad_request (error : string) : Body * Z :=
  (jsonify (error_body status.HTTP_400_BAD_REQUEST "Bad Request" error),
   status.HTTP_400_BAD_REQUEST).

(** Modelled from the spec: [request_validation_error]: a 400 body of the
    same shape carrying the validation detail. *)
Definition request_validation_error (error : string) : Body * Z :=
  bad_request error.

(** Modelled from the spec: 415 with a message stating the required
    content type. *)
Definition mediatype_not_supported (error : string) : Body * Z :=
  (jsonify (error_body status.HTTP_415_UNSUPPORTED_MEDIA_TYPE
              "Unsupported media type" error),
   status.HTTP_415_UNSUPPORTED_MEDIA_TYPE).

(** Any other failure surfaces as a generic 500 with no internal detail. *)
Definition internal_server_error : Body * Z :=
  (jsonify (error_body status.HTTP_500_INTERNAL_SERVER_ERROR
              "Internal Server Error" "Internal Server Error"),
   status.HTTP_500_INTERNAL_SERVER_ERROR).

(** Modelled from the spec: the handlers registered with the application,
    by the kind of exception that escapes a view. *)
Definition handle_exception (e : exn) : Body * Z :=
  match e with
  | DataValidationError message => request_validation_error message
  | HTTPException code description =>
      if bool_decide (code = status.HTTP_404_NOT_FOUND) then not_found description
      else if bool_decide (code = status.HTTP_400_BAD_REQUEST) then bad_request description
      else if bool_decide (code = status.HTTP_415_UNSUPPORTED_MEDIA_TYPE)
      then mediatype_not_supported description
      else (jsonify (error_body code "Error" description), code)
  | TypeError _ | PyException _ => internal_server_error
  end.

End error_handlers.

(** ** The routes

    The views of [service/routes.py], statement by statement.  Calls to
    [app.logger] write to the log only and are left out; a view that returns
    a [(body, status)] pair is passed through [respond]. *)

Module routes.
Section views.
Context `{DateLib}.

Import error_handlers.

Abbreviation View := (Handler Account.Store Response).

(** [abort(code, description)] *)
Definition abort {A} (code : Z) (description : string) : Handler Account.Store A :=
  raise (HTTPException code description).

(** [request.get_json()] *)
Definition get_json (request : Request) : Handler Account.Store json :=
  lift (json_payload request).

(** Python truth value of [headers.get(...)]: [None] and the empty string
    are false. *)
Definition truthy (o : option string) : bool :=
  match o with
  | None => false
  | Some s => negb (bool_decide (s = ""))
  end.

(** [url_for("read_account", account_id=..., _external=True)]; the root URL
    ends in a slash.  Without an id no URL can be built. *)
Definition url_for_read_account (request : Request) (account_id : option Z)
  : Handler Account.Store string :=
  match account_id with
  | Some k => mret (url_root request +:+ "accounts/" +:+ pretty k)
  | None => raise (PyException "BuildError")
  end.

Definition check_content_type (request : Request) (media_type : string)
  : Handler Account.Store unit :=
  let content_type := headers request !! "Content-Type" in
  if truthy content_type && bool_decide (content_type = Some media_type)
  then mret tt
  else abort status.HTTP_415_UNSUPPORTED_MEDIA_TYPE
         ("Content-Type must be " +:+ media_type).

Definition health : View :=
  mret (respond (jsonify (JObject {["status" := JString "OK"]}), status.HTTP_200_OK)).

Definition index : View :=
  mret (respond
    (jsonify (JObject (list_to_map [
       ("name", JString "Account REST API Service");
       ("version", JString "1.0")])),
     status.HTTP_200_OK)).

Definition create_accounts (request : Request) : View :=
  check_content_type request "application/json" ;;
  let account := Account.new (today request) in
  data ← get_json request;
  account ← lift (Account.deserialize account (today request) data);
  account ← Account.create account;
  let message := Account.serialize account in
  location_url ← url_for_read_account request (Account.id account);
  mret (make_response (jsonify message) status.HTTP_201_CREATED
          [("Location", location_url)]).

Definition list_accounts : View :=
  accounts ← Account.all;
  let account_sers := Account.serialize <$> accounts in
  mret (respond (jsonify (JArray account_sers), status.HTTP_200_OK)).

Definition read_account (account_id : Z) : View :=
  account ← Account.find account_id;
  match account with
  | None =>
      mret (respond (not_found ("Account " +:+ pretty account_id +:+ " does not exist.")))
  | Some account =>
      mret (respond (jsonify (Account.serialize account), status.HTTP_200_OK))
  end.

Definition update_account (request : Request) (account_id : Z) : View :=
  account_found ← Account.find account_id;
  match account_found with
  | None =>
      mret (respond (not_found ("Account " +:+ pretty account_id +:+ " does not exist.")))
  | Some account_found =>
      data ← get_json request;
      account_found ← lift (Account.deserialize account_found (today request) data);
      if negb (bool_decide (Account.id account_found = Some account_id))
      then mret (respond (request_validation_error "ID mismatch"))
      else
        Account.update account_found ;;
        mret (respond (jsonify (Account.serialize account_found), status.HTTP_200_OK))
  end.

Definition delete_account (account_id : Z) : View :=
  account_found ← Account.find account_id;
  match account_found with
  | Some account_found => Account.delete account_found
  | None => mret tt
  end ;;
  mret (respond (Text "", status.HTTP_204_NO_CONTENT)).

(** The endpoints the application registers. *)
Inductive Endpoint : Type :=
  | GET_health
  | GET_index
  | POST_accounts
  | GET_accounts
  | GET_account (account_id : Z)
  | PUT_account (account_id : Z)
  | DELETE_account (account_id : Z).

Definition view_of (ep : Endpoint) (request : Request) : View :=
  match ep with
  | GET_health => health
  | GET_index => index
  | POST_accounts => create_accounts request
  | GET_accounts => list_accounts
  | GET_account account_id => read_account account_id
  | PUT_account account_id => update_account request account_id
  | DELETE_account account_id => delete_account account_id
  end.

(** One request: the view runs, and an exception that escapes it goes
    through the error translator. *)
Definition app (ep : Endpoint) (request : Request) (st : Account.Store)
  : Account.Store * Response :=
  match view_of ep request st with
  | (st', inr response) => (st', response)
  | (st', inl e) => (st', respond (handle_exception e))
  end.

(** A sequence of requests served one after the other: the final table and
    the responses in order. *)
Fixpoint serve (reqs : list (Endpoint * Request)) (st : Account.Store)
  : Account.Store * list Response :=
  match reqs with
  | [] => (st, [])
  | (ep, request) :: reqs' =>
      let '(st', r) := app ep request st in
      let '(st'', rs) := serve reqs' st' in
      (st'', r :: rs)
  end.

End views.
End routes.

(** ** Concrete data for the examples *)

Module Samples.

(** Dates kept in their ISO text; a string parses when it has the ten
    characters of YYYY-MM-DD. *)
Definition iso_dates : DateLib :=
  {| date := string;
     isoformat := λ d, d;
     fromisoformat := λ s, if bool_decide (String.length s = 10%nat) then Some s else None |}.

Definition joe_fields : gmap string json :=
  list_to_map [
    ("name", JString "Joe");
    ("email", JString "joe@x.com");
    ("address", JString "1 Main");
    ("phone_number", JString "555-1212")
  ].

Definition joe : json := JObject joe_fields.

Definition joe_fields_as (k : Z) : gmap string json :=
  list_to_map [
    ("id", JInt k);
    ("name", JString "Joe Foo");
    ("email", JString "joe@x.com");
    ("address", JString "1 Main");
    ("phone_number", JString "555-1212");
    ("date_joined", JString "2023-01-15")
  ].

Definition joe_as (k : Z) : json := JObject (joe_fields_as k).

Definition only_name_fields : gmap string json :=
  {["name" := JString "not enough data"]}.

Definition only_name : json := JObject only_name_fields.

Definition request_with (content_type : option string) (payload : exn + json)
  : @Request iso_dates :=
  @mkRequest iso_dates
    match content_type with
    | Some c => {["Content-Type" := c]}
    | None => ∅
    end
    "http://localhost/"
    payload
    ("2026-11-03" : @date iso_dates).

Definition json_request (payload : json) : @Request iso_dates :=
  request_with (Some "application/json") (inr payload).

Definition one_account : @Account.Store iso_dates :=
  (routes.app routes.POST_accounts (json_request joe) Account.empty_store).1.

(** The row the first POST of [joe] stores. *)
Definition joe_row : @Account.Row iso_dates :=
  @Account.mkRow iso_dates "Joe" "joe@x.com" "1 Main" "555-1212"
    ("2026-11-03" : @date iso_dates).

(** An entity as a test factory builds one: every field set, id included. *)
Definition ann : @Account.t iso_dates :=
  @Account.mk iso_dates (Some 40) "Ann" "ann@x.org" "2 High St" "555-0100"
    ("2024-02-29" : @date iso_dates).

(** What [joe_as k] deserializes to. *)
Definition joe_foo (k : Z) : @Account.t iso_dates :=
  @Account.mk iso_dates (Some k) "Joe Foo" "joe@x.com" "1 Main" "555-1212"
    ("2023-01-15" : @date iso_dates).

(** Two accounts as the factory builds them, each with the server's date at
    the time it is posted. *)
Definition two_built : list (@date iso_dates * @Account.t iso_dates) :=
  [ ("2026-11-03" : @date iso_dates, ann);
    ("2026-11-04" : @date iso_dates, joe_foo 0) ].

End Samples.

(** ** Notions used by the statements *)

Section notions.
Context `{DateLib}.

(** A POST the service accepts: JSON content type and a payload that
    deserializes onto a new entity. *)
Definition accepted_post (request : Request) : Prop :=
  headers request !! "Content-Type" = Some "application/json" ∧
  ∃ data a,
    json_payload request = inr data ∧
    Account.deserialize (Account.new (today request)) (today request) data = inr a.

(** Keys in use are positive and below the next key of the sequence. *)
Definition store_ok (st : Account.Store) : Prop :=
  0 < Account.next_id st ∧
  ∀ k, is_Some (Account.rows st !! k) → 0 < k < Account.next_id st.

(** The table after [create] of an entity. *)
Definition inserted (a : Account.t) (st : Account.Store) : Account.Store :=
  {| Account.rows := <[Account.next_id st := Account.row_of a]> (Account.rows st);
     Account.next_id := Account.next_id st + 1;
     Account.journal := Account.Inserted (Account.next_id st) :: Account.journal st |}.

(** The table after [update] of an entity whose id is [k]. *)
Definition replaced (k : Z) (a : Account.t) (st : Account.Store) : Account.Store :=
  {| Account.rows := <[k := Account.row_of a]> (Account.rows st);
     Account.next_id := Account.next_id st;
     Account.journal := Account.Updated k :: Account.journal st |}.

(** The read URL of an account. *)
Definition read_url (request : Request) (k : Z) : string :=
  url_root request +:+ "accounts/" +:+ pretty k.

(** The message of the 404 responses. *)
Definition does_not_exist (account_id : Z) : string :=
  "Account " +:+ pretty account_id +:+ " does not exist.".

End notions.

(** ** Further notions *)

Section more_notions.
Context `{DateLib}.

(** The table after [delete] of an entity whose id is [k]. *)
Definition removed (k : Z) (st : Account.Store) : Account.Store :=
  {| Account.rows := delete k (Account.rows st);
     Account.next_id := Account.next_id st;
     Account.journal := Account.Deleted k :: Account.journal st |}.

(** The endpoints whose views call no mutating gateway operation. *)
Definition read_only (ep : routes.Endpoint) : bool :=
  match ep with
  | routes.GET_health | routes.GET_index | routes.GET_accounts
  | routes.GET_account _ => true
  | _ => false
  end.

(** A date that survives printing and parsing. *)
Definition round_trips (d : date) : Prop :=
  fromisoformat (isoformat d) = Some d.

(** [data[key]] on a mapping, absent on anything else. *)
Definition json_get (key : string) (data : json) : option json :=
  match data with
  | JObject m => m !! key
  | _ => None
  end.

End more_notions.

(** ** The helper of the test suite *)

Module test_routes.
Section helpers.
Context `{DateLib}.

(** The request behind [self.client.post(BASE_URL, json=payload)]: the test
    client sends the payload as JSON, under the JSON content type, to the
    local root. *)
Definition client_post (now : date) (payload : json) : Request :=
  {| headers := {["Content-Type" := "application/json"]};
     url_root := "http://localhost/";
     json_payload := inr payload;
     today := now |}.

(** [response.get_json()] *)
Definition response_json (response : Response) : option json :=
  match body response with
  | Json j => Some j
  | Text _ => None
  end.

(** [_create_accounts]: for each account the factory builds (given here
    with the server's date at the time of its request), post its
    serialization, assert the 201, and set its id from the answer. *)
Fixpoint _create_accounts (built : list (date * Account.t))
  : Handler Account.Store (list Account.t) :=
  match built with
  | [] => mret []
  | (now, account) :: built' =>
      response ← (λ st,
        let out := routes.app routes.POST_accounts
                     (client_post now (Account.serialize account)) st in
        (out.1, inr out.2));
      if bool_decide (status_code response = status.HTTP_201_CREATED) then
        match response_json response ≫= json_get "id" with
        | Some (JInt k) =>
            let account :=
              {| Account.id := Some k; Account.name := Account.name account;
                 Account.email := Account.email account;
                 Account.address := Account.address account;
                 Account.phone_number := Account.phone_number account;
                 Account.date_joined := Account.date_joined account |} in
            accounts ← _create_accounts built';
            mret (account :: accounts)
        | Some JNull =>
            let account :=
              {| Account.id := None; Account.name := Account.name account;
                 Account.email := Account.email account;
                 Account.address := Account.address account;
                 Account.phone_number := Account.phone_number account;
                 Account.date_joined := Account.date_joined account |} in
            accounts ← _create_accounts built';
            mret (account :: accounts)
        | Some _ => raise (TypeError "id is not an integer")
        | None => raise (PyException "KeyError: id")
        end
      else raise (PyException "AssertionError: Could not create test Account")
  end.

End helpers.
End test_routes.

Ltac run_view :=
  unfold routes.app, routes.view_of, routes.create_accounts, routes.list_accounts,
    routes.read_account, routes.update_account, routes.delete_account,
    routes.check_content_type, routes.get_json, routes.url_for_read_account,
    routes.abort, Account.find, Account.all, Account.create, Account.update,
    Account.delete;
  unfold mbind, mret, Handler_bind, Handler_ret, bind, ret, raise, lift,
    get_state, put_state; simpl.

(** * Properties *)

(** ** The entity's deserialization *)

Section deserialize_facts.
Context `{DateLib}.

Implicit Types (self : Account.t) (m : gmap string json).

Lemma required_text_error m key e :
  Account.required_text m key = inl e → ∃ message, e = DataValidationError message.
Proof.
  unfold Account.required_text.
  destruct (m !! key) as [[]|]; intros [= <-]; eauto.
Qed.

Lemma required_text_missing m key :
  m !! key = None →
  ∃ message, Account.required_text m key = inl (DataValidationError message).
Proof.
  intros Hm. unfold Account.required_text. rewrite Hm. eauto.
Qed.

Lemma optional_date_error m d e :
  Account.optional_date m d = inl e → ∃ message, e = DataValidationError message.
Proof.
  unfold Account.optional_date.
  destruct (m !! "date_joined") as [[]|]; try (intros [= <-]; eauto).
  destruct (fromisoformat _); intros [= <-]; eauto.
Qed.

Lemma optional_id_error m i e :
  Account.optional_id m i = inl e → ∃ message, e = DataValidationError message.
Proof.
  unfold Account.optional_id.
  destruct (m !! "id") as [[]|]; intros [= <-]; eauto.
Qed.

(** On a mapping, every failure of [deserialize] is a validation error. *)
Lemma deserialize_object_error self d m e :
  Account.deserialize self d (JObject m) = inl e →
  ∃ message, e = DataValidationError message.
Proof.
  unfold Account.deserialize, mbind, raising_bind, and_then.
  destruct (Account.required_text m "name") eqn:E1;
    [intros [= <-]; eauto using required_text_error|].
  destruct (Account.required_text m "email") eqn:E2;
    [intros [= <-]; eauto using required_text_error|].
  destruct (Account.required_text m "address") eqn:E3;
    [intros [= <-]; eauto using required_text_error|].
  destruct (Account.required_text m "phone_number") eqn:E4;
    [intros [= <-]; eauto using required_text_error|].
  destruct (Account.optional_date m d) eqn:E5;
    [intros [= <-]; eauto using optional_date_error|].
  destruct (Account.optional_id m (Account.id self)) eqn:E6;
    [intros [= <-]; eauto using optional_id_error|].
  discriminate.
Qed.

(** A mapping that lacks a required key does not deserialize. *)
Lemma deserialize_missing_key self d m key :
  key ∈ ["name"; "email"; "address"; "phone_number"] →
  m !! key = None →
  ∃ e, Account.deserialize self d (JObject m) = inl e.
Proof.
  intros Hkey Hm.
  destruct (Account.deserialize self d (JObject m)) as [e|a] eqn:E; [eauto|].
  exfalso. revert E.
  unfold Account.deserialize, mbind, raising_bind, and_then.
  destruct (Account.required_text m "name") eqn:E1; [discriminate|].
  destruct (Account.required_text m "email") eqn:E2; [discriminate|].
  destruct (Account.required_text m "address") eqn:E3; [discriminate|].
  destruct (Account.required_text m "phone_number") eqn:E4; [discriminate|].
  intros _.
  repeat (apply elem_of_cons in Hkey as [->|Hkey]);
    [ destruct (required_text_missing m _ Hm) as [? Hr]; congruence ..
    | by apply elem_of_nil in Hkey ].
Qed.

(** What a successful [deserialize] leaves in the entity's id. *)
Lemma deserialize_id self d m a :
  Account.deserialize self d (JObject m) = inr a →
  match m !! "id" with
  | None => Account.id a = Account.id self
  | Some JNull => Account.id a = None
  | Some (JInt z) => Account.id a = Some z
  | Some _ => False
  end.
Proof.
  unfold Account.deserialize, mbind, raising_bind, and_then.
  destruct (Account.required_text m "name"); [discriminate|].
  destruct (Account.required_text m "email"); [discriminate|].
  destruct (Account.required_text m "address"); [discriminate|].
  destruct (Account.required_text m "phone_number"); [discriminate|].
  destruct (Account.optional_date m d); [discriminate|].
  unfold Account.optional_id.
  destruct (m !! "id") as [[]|]; try discriminate; by intros [= <-].
Qed.

End deserialize_facts.

(** ** The views, case by case *)

Section view_facts.
Context `{DateLib}.

Implicit Types (request : Request) (st : Account.Store) (account_id : Z).

Lemma check_content_type_ok request st :
  headers request !! "Content-Type" = Some "application/json" →
  routes.check_content_type request "application/json" st = (st, inr tt).
Proof.
  intros Hct. unfold routes.check_content_type. rewrite Hct. reflexivity.
Qed.

Lemma check_content_type_bad request st :
  headers request !! "Content-Type" ≠ Some "application/json" →
  routes.check_content_type request "application/json" st
  = (st, inl (HTTPException status.HTTP_415_UNSUPPORTED_MEDIA_TYPE
                "Content-Type must be application/json")).
Proof.
  intros Hct. unfold routes.check_content_type.
  destruct (headers request !! "Content-Type") as [c|]; [|reflexivity].
  rewrite bool_decide_eq_false_2 by done.
  rewrite andb_false_r. reflexivity.
Qed.

(** PUT on a stored account: the payload is read, deserialized onto the
    found entity, the id compared with the path id, and only then is the
    row replaced. *)
Lemma update_found request account_id st r :
  Account.rows st !! account_id = Some r →
  routes.app (routes.PUT_account account_id) request st
  = match json_payload request with
    | inl e => (st, respond (error_handlers.handle_exception e))
    | inr data =>
        match Account.deserialize (Account.entity_of account_id r) (today request) data with
        | inl e => (st, respond (error_handlers.handle_exception e))
        | inr a =>
            if bool_decide (Account.id a = Some account_id)
            then (replaced account_id a st,
                  respond (jsonify (Account.serialize a), status.HTTP_200_OK))
            else (st, respond (error_handlers.request_validation_error "ID mismatch"))
        end
    end.
Proof.
  intros Hr. run_view. rewrite Hr. simpl.
  destruct (json_payload request) as [e|data]; [reflexivity|].
  destruct (Account.deserialize _ _ data) as [e|a]; [reflexivity|].
  case_bool_decide as Hid; simpl; [|reflexivity].
  rewrite Hid, Hr. reflexivity.
Qed.

(** POST with the JSON content type. *)
Lemma create_checked request st :
  headers request !! "Content-Type" = Some "application/json" →
  routes.app routes.POST_accounts request st
  = match json_payload request with
    | inl e => (st, respond (error_handlers.handle_exception e))
    | inr data =>
        match Account.deserialize (Account.new (today request)) (today request) data with
        | inl e => (st, respond (error_handlers.handle_exception e))
        | inr a =>
            (inserted a st,
             make_response
               (jsonify (Account.serialize
                           (Account.entity_of (Account.next_id st) (Account.row_of a))))
               status.HTTP_201_CREATED
               [("Location", read_url request (Account.next_id st))])
        end
    end.
Proof.
  intros Hct. unfold routes.app, routes.view_of, routes.create_accounts.
  unfold mbind at 1. unfold Handler_bind, bind.
  rewrite (check_content_type_ok _ _ Hct).
  run_view.
  destruct (json_payload request) as [e|data]; [reflexivity|].
  destruct (Account.deserialize _ _ data) as [e|a]; reflexivity.
Qed.

Lemma read_found request account_id st r :
  Account.rows st !! account_id = Some r →
  routes.app (routes.GET_account account_id) request st
  = (st, respond (jsonify (Account.serialize (Account.entity_of account_id r)),
                  status.HTTP_200_OK)).
Proof. intros Hr. run_view. rewrite Hr. reflexivity. Qed.

Lemma read_absent request account_id st :
  Account.rows st !! account_id = None →
  routes.app (routes.GET_account account_id) request st
  = (st, respond (error_handlers.not_found (does_not_exist account_id))).
Proof. intros Hr. run_view. rewrite Hr. reflexivity. Qed.

Lemma list_all request st :
  routes.app routes.GET_accounts request st
  = (st, respond
           (jsonify (JArray (Account.serialize <$>
              ((λ kr : Z * Account.Row, Account.entity_of kr.1 kr.2) <$>
                 map_to_list (Account.rows st)))),
            status.HTTP_200_OK)).
Proof. reflexivity. Qed.

(** ** The key sequence *)

Lemma store_ok_empty : store_ok Account.empty_store.
Proof.
  split; [reflexivity|]. intros k [r Hr]. simpl in Hr.
  by rewrite lookup_empty in Hr.
Qed.

Lemma store_ok_next_free st :
  store_ok st → Account.rows st !! Account.next_id st = None.
Proof.
  intros [_ Hok]. destruct (Account.rows st !! Account.next_id st) eqn:E; [|done].
  specialize (Hok _ (mk_is_Some _ _ E)). lia.
Qed.

Lemma store_ok_inserted a st : store_ok st → store_ok (inserted a st).
Proof.
  intros [Hpos Hok]. split; simpl; [lia|].
  intros k [r Hr]. destruct (decide (Account.next_id st = k)) as [<-|Hne]; [lia|].
  rewrite lookup_insert_ne in Hr by done.
  specialize (Hok k (mk_is_Some _ _ Hr)). lia.
Qed.

(** Serving accepted POSTs adds one row each. *)
Lemma serve_posts_size (requests : list Request) st :
  store_ok st →
  Forall accepted_post requests →
  store_ok (routes.serve ((λ q, (routes.POST_accounts, q)) <$> requests) st).1 ∧
  size (Account.rows (routes.serve ((λ q, (routes.POST_accounts, q)) <$> requests) st).1)
  = (size (Account.rows st) + length requests)%nat ∧
  Forall (λ r, status_code r = status.HTTP_201_CREATED)
    (routes.serve ((λ q, (routes.POST_accounts, q)) <$> requests) st).2.
Proof.
  intros Hok Hall. revert st Hok.
  induction Hall as [|q requests [Hct (data & a & Hdata & Hdes)] _ IH]; intros st Hok.
  - simpl. split_and!; [done|lia|constructor].
  - rewrite fmap_cons. cbn [routes.serve].
    rewrite (create_checked _ _ Hct), Hdata, Hdes.
    destruct (IH (inserted a st) (store_ok_inserted a st Hok)) as (IH1 & IH2 & IH3).
    destruct (routes.serve _ (inserted a st)) as [st'' rs]. simpl in *.
    split_and!; [done| |by constructor].
    rewrite IH2, (map_size_insert_None _ _ _ (store_ok_next_free st Hok)). lia.
Qed.

(** POST with any other content type. *)
Lemma create_rejected request st :
  headers request !! "Content-Type" ≠ Some "application/json" →
  routes.app routes.POST_accounts request st
  = (st, respond (error_handlers.mediatype_not_supported
                    "Content-Type must be application/json")).
Proof.
  intros Hct. unfold routes.app, routes.view_of, routes.create_accounts.
  unfold mbind at 1. unfold Handler_bind, bind.
  rewrite (check_content_type_bad _ _ Hct). reflexivity.
Qed.

Lemma store_ok_replaced k a st :
  is_Some (Account.rows st !! k) → store_ok st → store_ok (replaced k a st).
Proof.
  intros Hk [Hpos Hok]. split; simpl; [done|].
  intros k' [r Hr]. destruct (decide (k = k')) as [<-|Hne]; [by apply Hok|].
  rewrite lookup_insert_ne in Hr by done. apply Hok. eauto.
Qed.

(** Every request keeps the keys in use below the key sequence, so the key
    given to the next account is never one in use. *)
Lemma store_ok_app ep request st :
  store_ok st → store_ok (routes.app ep request st).1.
Proof.
  intros Hok. destruct ep as [| | | |k|k|k]; try exact Hok.
  - destruct (decide (headers request !! "Content-Type" = Some "application/json"))
      as [Hct|Hct].
    + rewrite (create_checked _ _ Hct).
      destruct (json_payload request) as [e|data]; [exact Hok|].
      destruct (Account.deserialize _ _ data) as [e|a]; [exact Hok|].
      by apply store_ok_inserted.
    + by rewrite (create_rejected _ _ Hct).
  - run_view. by destruct (Account.rows st !! k).
  - destruct (Account.rows st !! k) as [r|] eqn:Hr.
    + rewrite (update_found _ _ _ _ Hr).
      destruct (json_payload request) as [e|data]; [exact Hok|].
      destruct (Account.deserialize _ _ data) as [e|a]; [exact Hok|].
      case_bool_decide; [|exact Hok]. apply store_ok_replaced; eauto.
    + run_view. by rewrite Hr.
  - run_view. destruct (Account.rows st !! k) as [r|] eqn:Hr; simpl; [|exact Hok].
    destruct Hok as [Hpos Hok]. split; simpl; [done|].
    intros k' [r' Hr']. apply Hok.
    destruct (decide (k = k')) as [<-|Hne].
    + by rewrite lookup_delete_eq in Hr'.
    + rewrite lookup_delete_ne in Hr' by done. eauto.
Qed.

End view_facts.

(** ** The claims about the endpoints *)

Section claims.
Context `{DateLib}.

Implicit Types (request : Request) (st : Account.Store) (account_id : Z).

(** C1.  A PUT whose path id matches no stored account is answered 404 and
    leaves the store as it was, whatever the request carries (in particular
    a payload whose id differs from the path id): the lookup comes first.
    Hence a 400 can only answer a PUT whose path id was found. *)
Theorem update_unknown_account_404 request account_id st :
  (Account.rows st !! account_id = None →
   routes.app (routes.PUT_account account_id) request st
   = (st, respond (error_handlers.not_found (does_not_exist account_id)))
   ∧ status_code (routes.app (routes.PUT_account account_id) request st).2 = 404)
  ∧ (status_code (routes.app (routes.PUT_account account_id) request st).2 = 400 →
     is_Some (Account.rows st !! account_id)).
Proof.
  assert (Hnone : Account.rows st !! account_id = None →
    routes.app (routes.PUT_account account_id) request st
    = (st, respond (error_handlers.not_found (does_not_exist account_id)))).
  { intros Hr. run_view. rewrite Hr. reflexivity. }
  split.
  - intros Hr. rewrite (Hnone Hr). split; reflexivity.
  - intros Hst. destruct (Account.rows st !! account_id) eqn:Hr; [eauto|].
    rewrite (Hnone eq_refl) in Hst. discriminate Hst.
Qed.

(** C2.  A PUT on a stored account whose payload carries an id other than
    the path id is answered with a 400 validation error and the store is
    left as it was; whenever the payload deserializes, the message is
    "ID mismatch". *)
Theorem update_id_mismatch_400 request account_id st r m v :
  Account.rows st !! account_id = Some r →
  json_payload request = inr (JObject m) →
  m !! "id" = Some v →
  v ≠ JInt account_id →
  ∃ message,
    routes.app (routes.PUT_account account_id) request st
    = (st, respond (error_handlers.request_validation_error message))
    ∧ status_code (respond (error_handlers.request_validation_error message)) = 400
    ∧ (∀ a, Account.deserialize (Account.entity_of account_id r) (today request)
               (JObject m) = inr a →
            message = "ID mismatch").
Proof.
  intros Hr Hdata Hv Hne. rewrite (update_found _ _ _ _ Hr), Hdata.
  destruct (Account.deserialize _ _ (JObject m)) as [e|a] eqn:Hdes.
  - destruct (deserialize_object_error _ _ _ _ Hdes) as [message ->].
    exists message. split_and!; [reflexivity|reflexivity|discriminate].
  - exists "ID mismatch".
    pose proof (deserialize_id _ _ _ _ Hdes) as Hid. rewrite Hv in Hid.
    rewrite bool_decide_eq_false_2; [by split_and!|].
    destruct v; try done; rewrite Hid; congruence.
Qed.

(** C3.  A POST with content type application/json whose payload
    deserializes is answered 201 with the serialized created entity, which
    carries the assigned id, and a Location header holding the entity's read
    URL; a GET of that id right after it is answered 200 with the same
    body. *)
Theorem create_then_read request data a st :
  headers request !! "Content-Type" = Some "application/json" →
  json_payload request = inr data →
  Account.deserialize (Account.new (today request)) (today request) data = inr a →
  ∃ k created st',
    routes.app routes.POST_accounts request st
    = (st', make_response (jsonify (Account.serialize created)) 201
              [("Location", read_url request k)])
    ∧ Account.id created = Some k
    ∧ Account.row_of created = Account.row_of a
    ∧ (∃ fields, Account.serialize created = JObject fields
                 ∧ fields !! "id" = Some (JInt k))
    ∧ ∀ request',
        routes.app (routes.GET_account k) request' st'
        = (st', respond (jsonify (Account.serialize created), 200)).
Proof.
  intros Hct Hdata Hdes.
  exists (Account.next_id st),
    (Account.entity_of (Account.next_id st) (Account.row_of a)), (inserted a st).
  rewrite (create_checked _ _ Hct), Hdata, Hdes.
  split_and!; try reflexivity.
  - eexists. split; reflexivity.
  - intros request'.
    rewrite (read_found _ _ _ (Account.row_of a)); [reflexivity|].
    simpl. apply lookup_insert_eq.
Qed.

(** C4.  A POST whose Content-Type header is not exactly application/json
    (absent, or any other text) is answered 415, whatever the payload is and
    whatever reading it would do, and nothing is persisted. *)
Theorem create_wrong_content_type_415 request st :
  headers request !! "Content-Type" ≠ Some "application/json" →
  routes.app routes.POST_accounts request st
  = (st, respond (error_handlers.mediatype_not_supported
                    "Content-Type must be application/json"))
  ∧ status_code (routes.app routes.POST_accounts request st).2 = 415.
Proof.
  intros Hct. rewrite (create_rejected _ _ Hct). split; reflexivity.
Qed.

(** C5.  A POST with the JSON content type whose payload is a mapping
    lacking one of name, email, address, phone_number is answered with a 400
    validation error, and the store is left as it was: no row is created. *)
Theorem create_missing_field_400 request m key st :
  headers request !! "Content-Type" = Some "application/json" →
  json_payload request = inr (JObject m) →
  key ∈ ["name"; "email"; "address"; "phone_number"] →
  m !! key = None →
  ∃ message,
    routes.app routes.POST_accounts request st
    = (st, respond (error_handlers.request_validation_error message))
    ∧ status_code (respond (error_handlers.request_validation_error message)) = 400.
Proof.
  intros Hct Hdata Hkey Hm. rewrite (create_checked _ _ Hct), Hdata.
  destruct (deserialize_missing_key (Account.new (today request)) (today request)
              m key Hkey Hm) as [e He].
  rewrite He. destruct (deserialize_object_error _ _ _ _ He) as [message ->].
  exists message. split; reflexivity.
Qed.

(** C6.  DELETE is answered 204 with an empty body for every id, stored or
    not; it is never answered 404. *)
Theorem delete_always_204 request account_id st :
  (routes.app (routes.DELETE_account account_id) request st).2
  = respond (Text "", 204)
  ∧ status_code (routes.app (routes.DELETE_account account_id) request st).2 ≠ 404.
Proof.
  assert ((routes.app (routes.DELETE_account account_id) request st).2
          = respond (Text "", 204)) as ->.
  { run_view. destruct (Account.rows st !! account_id); reflexivity. }
  split; [reflexivity|discriminate].
Qed.

(** C7.  GET /accounts is always answered 200 with an array that holds the
    serialization of every stored account and has one entry per row; after
    N accepted POSTs served from the empty store (each answered 201) the
    array has exactly N entries. *)
Theorem list_accounts_complete :
  (∀ request st,
     ∃ l, routes.app routes.GET_accounts request st
          = (st, respond (jsonify (JArray l), 200))
          ∧ length l = size (Account.rows st)
          ∧ ∀ k r, Account.rows st !! k = Some r →
                   Account.serialize (Account.entity_of k r) ∈ l)
  ∧ (∀ (posts : list Request) request,
       Forall accepted_post posts →
       ∃ l, (routes.app routes.GET_accounts request
               (routes.serve ((λ q, (routes.POST_accounts, q)) <$> posts)
                  Account.empty_store).1).2
            = respond (jsonify (JArray l), 200)
            ∧ length l = length posts
            ∧ Forall (λ r, status_code r = 201)
                (routes.serve ((λ q, (routes.POST_accounts, q)) <$> posts)
                   Account.empty_store).2).
Proof.
  split.
  - intros request st. eexists. split; [apply list_all|]. split.
    + by rewrite !length_fmap, length_map_to_list.
    + intros k r Hr. apply list_elem_of_fmap_2.
      apply (list_elem_of_fmap_2' _ _ (k, r)); [|reflexivity].
      by apply elem_of_map_to_list.
  - intros posts request Hposts.
    destruct (serve_posts_size posts Account.empty_store store_ok_empty Hposts)
      as (_ & Hsize & Hcodes).
    eexists. rewrite list_all. split; [reflexivity|]. split; [|exact Hcodes].
    rewrite !length_fmap, length_map_to_list, Hsize. simpl.
    by rewrite map_size_empty.
Qed.

(** C8.  GET /accounts/{id} is answered 200 with the serialized entity when
    a row with that id is stored and 404 when none is; GET /accounts/0 on
    the empty store is answered 404.  The store is left as it was. *)
Theorem read_account_200_or_404 request account_id st :
  (∀ r, Account.rows st !! account_id = Some r →
        routes.app (routes.GET_account account_id) request st
        = (st, respond (jsonify (Account.serialize (Account.entity_of account_id r)), 200)))
  ∧ (Account.rows st !! account_id = None →
     routes.app (routes.GET_account account_id) request st
     = (st, respond (error_handlers.not_found (does_not_exist account_id)))
     ∧ status_code (routes.app (routes.GET_account account_id) request st).2 = 404)
  ∧ status_code (routes.app (routes.GET_account 0) request Account.empty_store).2 = 404.
Proof.
  split_and!.
  - intros r Hr. run_view. rewrite Hr. reflexivity.
  - intros Hr.
    assert (routes.app (routes.GET_account account_id) request st
      = (st, respond (error_handlers.not_found (does_not_exist account_id)))) as ->.
    { run_view. rewrite Hr. reflexivity. }
    split; reflexivity.
  - reflexivity.
Qed.

(** C9.  A PUT on a stored account whose payload deserializes and has no id
    key passes the id check, since the found entity keeps the path id: the
    row is replaced by the submitted fields and the answer is 200 with the
    serialized updated entity. *)
Theorem update_without_id_accepted request account_id st r m a :
  Account.rows st !! account_id = Some r →
  json_payload request = inr (JObject m) →
  m !! "id" = None →
  Account.deserialize (Account.entity_of account_id r) (today request) (JObject m)
  = inr a →
  routes.app (routes.PUT_account account_id) request st
  = (replaced account_id a st, respond (jsonify (Account.serialize a), 200))
  ∧ Account.id a = Some account_id
  ∧ Account.rows (replaced account_id a st) !! account_id = Some (Account.row_of a).
Proof.
  intros Hr Hdata Hm Hdes.
  pose proof (deserialize_id _ _ _ _ Hdes) as Hid. rewrite Hm in Hid. simpl in Hid.
  rewrite (update_found _ _ _ _ Hr), Hdata, Hdes.
  rewrite bool_decide_eq_true_2 by done.
  split_and!; [reflexivity|done|]. simpl. apply lookup_insert_eq.
Qed.

(** C10.  A DELETE of an id that is not stored issues no mutation: the
    table, the key sequence and the journal of committed statements are
    left as they were.  The entity's delete runs only for an id that was
    found, where it removes the row and is journalled. *)
Theorem delete_unknown_no_mutation request account_id st :
  (Account.rows st !! account_id = None →
   routes.app (routes.DELETE_account account_id) request st
   = (st, respond (Text "", 204)))
  ∧ (∀ r, Account.rows st !! account_id = Some r →
          (routes.app (routes.DELETE_account account_id) request st).1
          = {| Account.rows := delete account_id (Account.rows st);
               Account.next_id := Account.next_id st;
               Account.journal := Account.Deleted account_id :: Account.journal st |}).
Proof.
  split.
  - intros Hr. run_view. rewrite Hr. reflexivity.
  - intros r Hr. run_view. rewrite Hr. reflexivity.
Qed.

End claims.

(** ** The claims at concrete requests *)

Section instances.
Import Samples.

Lemma update_unknown_account_404_witness :
  Account.rows one_account !! 7 = None
  ∧ routes.app (routes.PUT_account 7) (json_request (joe_as 2)) one_account
    = (one_account, respond (error_handlers.not_found (does_not_exist 7))).
Proof.
  assert (Hnone : Account.rows one_account !! 7 = None) by (vm_compute; reflexivity).
  split; [exact Hnone|].
  exact (proj1 (proj1 (update_unknown_account_404
                         (json_request (joe_as 2)) 7 one_account) Hnone)).
Defined.

Lemma update_id_mismatch_400_witness :
  Account.rows one_account !! 1 = Some joe_row
  ∧ ∃ message,
      routes.app (routes.PUT_account 1) (json_request (joe_as 2)) one_account
      = (one_account, respond (error_handlers.request_validation_error message))
      ∧ status_code (respond (error_handlers.request_validation_error message)) = 400
      ∧ (∀ a, Account.deserialize (Account.entity_of 1 joe_row)
                 (today (json_request (joe_as 2))) (JObject (joe_fields_as 2)) = inr a →
              message = "ID mismatch").
Proof.
  assert (Hrow : Account.rows one_account !! 1 = Some joe_row)
    by (vm_compute; reflexivity).
  split; [exact Hrow|].
  apply (update_id_mismatch_400 (json_request (joe_as 2)) 1 one_account joe_row
           (joe_fields_as 2) (JInt 2)).
  - exact Hrow.
  - reflexivity.
  - vm_compute; reflexivity.
  - discriminate.
Defined.

Lemma create_then_read_witness :
  ∃ k created st',
    routes.app routes.POST_accounts (json_request joe) Account.empty_store
    = (st', make_response (jsonify (Account.serialize created)) 201
              [("Location", read_url (json_request joe) k)])
    ∧ Account.id created = Some k
    ∧ Account.row_of created
      = Account.row_of (Account.entity_of 0 joe_row)
    ∧ (∃ fields, Account.serialize created = JObject fields
                 ∧ fields !! "id" = Some (JInt k))
    ∧ ∀ request',
        routes.app (routes.GET_account k) request' st'
        = (st', respond (jsonify (Account.serialize created), 200)).
Proof.
  apply (create_then_read (json_request joe) joe
           (@Account.mk iso_dates None "Joe" "joe@x.com" "1 Main" "555-1212"
              ("2026-11-03" : @date iso_dates))
           Account.empty_store).
  - vm_compute; reflexivity.
  - reflexivity.
  - vm_compute; reflexivity.
Defined.

Lemma create_wrong_content_type_415_witness :
  routes.app routes.POST_accounts (request_with (Some "text/html") (inr joe)) one_account
  = (one_account,
     respond (error_handlers.mediatype_not_supported
                "Content-Type must be application/json"))
  ∧ status_code
      (routes.app routes.POST_accounts
         (request_with (Some "text/html") (inr joe)) one_account).2 = 415.
Proof.
  apply (create_wrong_content_type_415
           (request_with (Some "text/html") (inr joe)) one_account).
  vm_compute. discriminate.
Defined.

Lemma create_missing_field_400_witness :
  ∃ message,
    routes.app routes.POST_accounts (json_request only_name) one_account
    = (one_account, respond (error_handlers.request_validation_error message))
    ∧ status_code (respond (error_handlers.request_validation_error message)) = 400.
Proof.
  apply (create_missing_field_400 (json_request only_name) only_name_fields
           "email" one_account).
  - vm_compute; reflexivity.
  - reflexivity.
  - vm_compute. apply list_elem_of_further, list_elem_of_here.
  - vm_compute; reflexivity.
Defined.

Lemma list_accounts_complete_witness :
  ∃ l, (routes.app routes.GET_accounts (json_request joe)
          (routes.serve
             ((λ q, (routes.POST_accounts, q)) <$> [json_request joe; json_request (joe_as 9)])
             Account.empty_store).1).2
       = respond (jsonify (JArray l), 200)
       ∧ length l = 2%nat
       ∧ Forall (λ r, status_code r = 201)
           (routes.serve
              ((λ q, (routes.POST_accounts, q)) <$> [json_request joe; json_request (joe_as 9)])
              Account.empty_store).2.
Proof.
  apply (proj2 (@list_accounts_complete iso_dates)
           [json_request joe; json_request (joe_as 9)] (json_request joe)).
  repeat constructor; try (vm_compute; reflexivity);
    eexists _, _; split; vm_compute; reflexivity.
Defined.

Lemma read_account_200_or_404_witness :
  Account.rows one_account !! 1 = Some joe_row
  ∧ routes.app (routes.GET_account 1) (json_request joe) one_account
    = (one_account,
       respond (jsonify (Account.serialize (Account.entity_of 1 joe_row)), 200))
  ∧ routes.app (routes.GET_account 5) (json_request joe) one_account
    = (one_account, respond (error_handlers.not_found (does_not_exist 5))).
Proof.
  assert (Hrow : Account.rows one_account !! 1 = Some joe_row)
    by (vm_compute; reflexivity).
  assert (Hnone : Account.rows one_account !! 5 = None) by (vm_compute; reflexivity).
  split; [exact Hrow|]. split.
  - exact (proj1 (read_account_200_or_404 (json_request joe) 1 one_account)
             joe_row Hrow).
  - exact (proj1 (proj1 (proj2 (read_account_200_or_404 (json_request joe) 5 one_account))
                    Hnone)).
Defined.

Lemma update_without_id_accepted_witness :
  routes.app (routes.PUT_account 1) (json_request joe) one_account
  = (replaced 1 (Account.entity_of 1 joe_row) one_account,
     respond (jsonify (Account.serialize (Account.entity_of 1 joe_row)), 200))
  ∧ Account.id (Account.entity_of 1 joe_row) = Some 1
  ∧ Account.rows (replaced 1 (Account.entity_of 1 joe_row) one_account) !! 1
    = Some (Account.row_of (Account.entity_of 1 joe_row)).
Proof.
  apply (update_without_id_accepted (json_request joe) 1 one_account joe_row joe_fields).
  - vm_compute; reflexivity.
  - reflexivity.
  - vm_compute; reflexivity.
  - vm_compute; reflexivity.
Defined.

Lemma delete_unknown_no_mutation_witness :
  Account.rows one_account !! 5 = None
  ∧ routes.app (routes.DELETE_account 5) (json_request joe) one_account
    = (one_account, respond (Text "", 204)).
Proof.
  assert (Hnone : Account.rows one_account !! 5 = None) by (vm_compute; reflexivity).
  split; [exact Hnone|].
  exact (proj1 (delete_unknown_no_mutation (json_request joe) 5 one_account) Hnone).
Defined.

(** The header absent, and a JSON type with a charset parameter. *)
Example post_without_content_type :
  status_code (routes.app routes.POST_accounts (request_with None (inr joe))
                 Account.empty_store).2 = 415.
Proof. vm_compute; reflexivity. Qed.

Example post_with_charset_parameter :
  routes.app routes.POST_accounts
    (request_with (Some "application/json; charset=utf-8") (inr joe)) one_account
  = (one_account,
     respond (error_handlers.mediatype_not_supported
                "Content-Type must be application/json")).
Proof. vm_compute; reflexivity. Qed.

(** The scenario of the test suite: create, then update with the id moved
    by one. *)
Example invalid_update_scenario :
  (routes.app (routes.PUT_account 1) (json_request (joe_as 2)) one_account).2
  = respond (error_handlers.request_validation_error "ID mismatch").
Proof. vm_compute; reflexivity. Qed.

Example update_scenario :
  Account.rows
    (routes.app (routes.PUT_account 1) (json_request (joe_as 1)) one_account).1 !! 1
  = Some (@Account.mkRow iso_dates "Joe Foo" "joe@x.com" "1 Main" "555-1212"
            ("2023-01-15" : @date iso_dates)).
Proof. vm_compute; reflexivity. Qed.

Example location_of_first_account :
  response_headers
    (routes.app routes.POST_accounts (json_request joe) Account.empty_store).2
  = [("Location", "http://localhost/accounts/1")].
Proof. vm_compute; reflexivity. Qed.

End instances.

(** * Further properties of the routes *)

Section more_view_facts.
Context `{DateLib}.

Implicit Types (request : Request) (st : Account.Store) (account_id : Z).

Lemma delete_found request account_id st r :
  Account.rows st !! account_id = Some r →
  routes.app (routes.DELETE_account account_id) request st
  = (removed account_id st, respond (Text "", status.HTTP_204_NO_CONTENT)).
Proof. intros Hr. run_view. rewrite Hr. reflexivity. Qed.

Lemma delete_absent request account_id st :
  Account.rows st !! account_id = None →
  routes.app (routes.DELETE_account account_id) request st
  = (st, respond (Text "", status.HTTP_204_NO_CONTENT)).
Proof. intros Hr. run_view. rewrite Hr. reflexivity. Qed.

Lemma update_missing request account_id st :
  Account.rows st !! account_id = None →
  routes.app (routes.PUT_account account_id) request st
  = (st, respond (error_handlers.not_found (does_not_exist account_id))).
Proof. intros Hr. run_view. rewrite Hr. reflexivity. Qed.

(** The fields of a serialized entity. *)
Lemma serialize_fields (a : Account.t) :
  ∃ m, Account.serialize a = JObject m
       ∧ m !! "name" = Some (JString (Account.name a))
       ∧ m !! "email" = Some (JString (Account.email a))
       ∧ m !! "address" = Some (JString (Account.address a))
       ∧ m !! "phone_number" = Some (JString (Account.phone_number a))
       ∧ m !! "date_joined" = Some (JString (isoformat (Account.date_joined a)))
       ∧ m !! "id" = Some (match Account.id a with
                           | Some k => JInt k
                           | None => JNull
                           end).
Proof. eexists. split_and!; reflexivity. Qed.

(** Deserializing a serialized entity gives the entity back, on whatever
    entity it is done, when the date survives printing and parsing. *)
Lemma deserialize_serialize (self a : Account.t) (d : date) :
  round_trips (Account.date_joined a) →
  Account.deserialize self d (Account.serialize a) = inr a.
Proof.
  intros Hd. destruct (serialize_fields a) as (m & -> & Hn & He & Ha & Hp & Hdj & Hi).
  unfold Account.deserialize, Account.required_text, Account.optional_date,
    Account.optional_id.
  rewrite Hn, He, Ha, Hp, Hdj, Hi. simpl.
  unfold round_trips in Hd. rewrite Hd. simpl.
  destruct a as [[k|] n e ad p dj]; reflexivity.
Qed.

Lemma store_ok_serve reqs st :
  store_ok st → store_ok (routes.serve reqs st).1.
Proof.
  revert st. induction reqs as [|[ep q] reqs IH]; intros st Hok; [exact Hok|].
  simpl. pose proof (store_ok_app ep q st Hok) as Hok1.
  destruct (routes.app ep q st) as [st1 r1]. simpl in Hok1.
  specialize (IH st1 Hok1). by destruct (routes.serve reqs st1).
Qed.

End more_view_facts.

Section more_properties.
Context `{DateLib}.

Implicit Types (request : Request) (st : Account.Store) (account_id : Z).

(** X1.  [check_content_type] returns normally exactly when the
    Content-Type header is present, equal to the wanted media type and not
    the empty string; otherwise it aborts with 415 and a message naming the
    wanted type.  It leaves the store as it was either way. *)
Theorem check_content_type_outcome request (media_type : string) st :
  routes.check_content_type request media_type st
  = (st,
     if decide (headers request !! "Content-Type" = Some media_type ∧ media_type ≠ "")
     then inr tt
     else inl (HTTPException 415 ("Content-Type must be " +:+ media_type))).
Proof.
  unfold routes.check_content_type, routes.truthy, routes.abort, raise, mret,
    Handler_ret, ret.
  case_decide as Hd.
  - destruct Hd as [Hc Hne]. rewrite Hc.
    rewrite (bool_decide_eq_false_2 (media_type = "")) by done.
    rewrite (bool_decide_eq_true_2 (Some media_type = Some media_type)) by done.
    reflexivity.
  - destruct (headers request !! "Content-Type") as [c|] eqn:Hc; [|reflexivity].
    destruct (decide (c = "")) as [->|Hnil].
    + rewrite (bool_decide_eq_true_2 ("" = "")) by done. reflexivity.
    + rewrite (bool_decide_eq_false_2 (Some c = Some media_type)).
      * rewrite andb_false_r. reflexivity.
      * intros [= ->]. apply Hd. by split.
Qed.

(** X2.  The views of /health, /, GET /accounts and GET /accounts/{id}
    issue no mutation: table, key sequence and journal are left as they
    were, for every request and store; /health and / answer 200 whatever
    the request and the store hold. *)
Theorem reads_never_mutate ep request st :
  read_only ep = true →
  (routes.app ep request st).1 = st
  ∧ (ep = routes.GET_health ∨ ep = routes.GET_index →
     status_code (routes.app ep request st).2 = 200).
Proof.
  intros Hro. destruct ep as [| | | |k|k|k]; try discriminate Hro.
  - split; [reflexivity|intros _; reflexivity].
  - split; [reflexivity|intros _; reflexivity].
  - split; [reflexivity|intros [?|?]; discriminate].
  - split; [|intros [?|?]; discriminate].
    run_view. by destruct (Account.rows st !! k).
Qed.

(** X3.  A PUT either leaves the store as it was, or replaces exactly the
    row under the path id by the deserialized entity, whose id is the path
    id, and answers 200 with that entity: nothing is written on any error
    path. *)
Theorem update_writes_only_on_success request account_id st :
  (routes.app (routes.PUT_account account_id) request st).1 = st
  ∨ ∃ a, is_Some (Account.rows st !! account_id)
         ∧ Account.id a = Some account_id
         ∧ routes.app (routes.PUT_account account_id) request st
           = (replaced account_id a st,
              respond (jsonify (Account.serialize a), 200)).
Proof.
  destruct (Account.rows st !! account_id) as [r|] eqn:Hr.
  - rewrite (update_found _ _ _ _ Hr).
    destruct (json_payload request) as [e|data]; [by left|].
    destruct (Account.deserialize _ _ data) as [e|a]; [by left|].
    case_bool_decide as Hid; [|by left].
    right. exists a. by split_and!.
  - left. by rewrite (update_missing _ _ _ Hr).
Qed.

(** X4.  A PUT never creates or removes an account and never touches
    another account's row: the stored ids and the key sequence are the same
    afterwards, and so is every row but the one under the path id. *)
Theorem update_keeps_other_rows request account_id st :
  dom (Account.rows (routes.app (routes.PUT_account account_id) request st).1)
  = dom (Account.rows st)
  ∧ Account.next_id (routes.app (routes.PUT_account account_id) request st).1
    = Account.next_id st
  ∧ ∀ k, k ≠ account_id →
         Account.rows (routes.app (routes.PUT_account account_id) request st).1 !! k
         = Account.rows st !! k.
Proof.
  destruct (Account.rows st !! account_id) as [r|] eqn:Hr;
    [|by rewrite (update_missing _ _ _ Hr)].
  rewrite (update_found _ _ _ _ Hr).
  destruct (json_payload request) as [e|data]; [done|].
  destruct (Account.deserialize _ _ data) as [e|a]; [done|].
  case_bool_decide as Hid; [|done].
  simpl. split_and!; [|done|].
  - rewrite dom_insert_L. apply subseteq_union_1_L, singleton_subseteq_l.
    by apply (elem_of_dom_2 (D:=gset Z)) in Hr.
  - intros k Hk. by rewrite lookup_insert_ne.
Qed.

(** X5.  A POST either leaves the store as it was, or inserts exactly one
    row, under the next key of the sequence, and answers 201 with the
    created entity and its read URL: nothing is written when the content
    type, the payload or its deserialization is refused. *)
Theorem create_writes_only_on_success request st :
  (routes.app routes.POST_accounts request st).1 = st
  ∨ ∃ a, routes.app routes.POST_accounts request st
         = (inserted a st,
            make_response
              (jsonify (Account.serialize
                          (Account.entity_of (Account.next_id st) (Account.row_of a))))
              201
              [("Location", read_url request (Account.next_id st))]).
Proof.
  destruct (decide (headers request !! "Content-Type" = Some "application/json"))
    as [Hct|Hct].
  - rewrite (create_checked _ _ Hct).
    destruct (json_payload request) as [e|data]; [by left|].
    destruct (Account.deserialize _ _ data) as [e|a]; [by left|].
    right. by exists a.
  - left. by rewrite (create_rejected _ _ Hct).
Qed.

(** X6.  On a store whose keys in use lie below the key sequence, a POST
    never changes or removes a stored account: every row that was stored is
    stored unchanged afterwards. *)
Theorem create_keeps_stored_rows request st k r :
  store_ok st →
  Account.rows st !! k = Some r →
  Account.rows (routes.app routes.POST_accounts request st).1 !! k = Some r.
Proof.
  intros Hok Hr.
  destruct (decide (headers request !! "Content-Type" = Some "application/json"))
    as [Hct|Hct]; [|by rewrite (create_rejected _ _ Hct)].
  rewrite (create_checked _ _ Hct).
  destruct (json_payload request) as [e|data]; [done|].
  destruct (Account.deserialize _ _ data) as [e|a]; [done|].
  simpl. rewrite lookup_insert_ne; [done|].
  intros Heq. rewrite <- Heq, (store_ok_next_free _ Hok) in Hr. discriminate.
Qed.

(** X7.  After a DELETE of an id, stored or not, a GET of that id is
    answered 404; the DELETE leaves every other row and the key sequence as
    they were. *)
Theorem delete_then_read request request' account_id st :
  routes.app (routes.GET_account account_id) request'
    (routes.app (routes.DELETE_account account_id) request st).1
  = ((routes.app (routes.DELETE_account account_id) request st).1,
     respond (error_handlers.not_found (does_not_exist account_id)))
  ∧ Account.next_id (routes.app (routes.DELETE_account account_id) request st).1
    = Account.next_id st
  ∧ ∀ k, k ≠ account_id →
         Account.rows (routes.app (routes.DELETE_account account_id) request st).1 !! k
         = Account.rows st !! k.
Proof.
  destruct (Account.rows st !! account_id) as [r|] eqn:Hr.
  - rewrite (delete_found _ _ _ _ Hr). simpl. split_and!; [|done|].
    + apply read_absent. simpl. apply lookup_delete_eq.
    + intros k Hk. by rewrite lookup_delete_ne.
  - rewrite (delete_absent _ _ _ Hr). simpl. split_and!; [|done|done].
    by apply read_absent.
Qed.

(** X8.  DELETE is idempotent: a second DELETE of the same id is answered
    204 again and issues no mutation. *)
Theorem delete_twice request request' account_id st :
  routes.app (routes.DELETE_account account_id) request'
    (routes.app (routes.DELETE_account account_id) request st).1
  = ((routes.app (routes.DELETE_account account_id) request st).1,
     respond (Text "", 204)).
Proof.
  destruct (Account.rows st !! account_id) as [r|] eqn:Hr.
  - rewrite (delete_found _ _ _ _ Hr). simpl.
    apply delete_absent. simpl. apply lookup_delete_eq.
  - rewrite (delete_absent _ _ _ Hr). simpl. by apply delete_absent.
Qed.

(** X9.  After a PUT on a stored account whose payload deserializes to an
    entity carrying the path id, a GET of that id is answered 200 with the
    body the PUT was answered with. *)
Theorem update_then_read request request' account_id st r data a :
  Account.rows st !! account_id = Some r →
  json_payload request = inr data →
  Account.deserialize (Account.entity_of account_id r) (today request) data = inr a →
  Account.id a = Some account_id →
  routes.app (routes.PUT_account account_id) request st
  = (replaced account_id a st, respond (jsonify (Account.serialize a), 200))
  ∧ routes.app (routes.GET_account account_id) request' (replaced account_id a st)
    = (replaced account_id a st, respond (jsonify (Account.serialize a), 200)).
Proof.
  intros Hr Hdata Hdes Hid. split.
  - rewrite (update_found _ _ _ _ Hr), Hdata, Hdes.
    by rewrite bool_decide_eq_true_2.
  - rewrite (read_found _ _ _ (Account.row_of a)); [|simpl; apply lookup_insert_eq].
    destruct a as [i n e ad p dj]. simpl in Hid. subst i. reflexivity.
Qed.

(** X10.  A POST of the serialization of any entity whose date survives
    printing and parsing is accepted: it stores the entity's five fields
    under the next key of the sequence and answers 201 with them; the id
    the payload carries is not the one assigned. *)
Theorem create_from_serialized request (a : Account.t) st :
  headers request !! "Content-Type" = Some "application/json" →
  json_payload request = inr (Account.serialize a) →
  round_trips (Account.date_joined a) →
  routes.app routes.POST_accounts request st
  = (inserted a st,
     make_response
       (jsonify (Account.serialize
                   (Account.entity_of (Account.next_id st) (Account.row_of a))))
       201
       [("Location", read_url request (Account.next_id st))])
  ∧ json_get "id"
      (Account.serialize (Account.entity_of (Account.next_id st) (Account.row_of a)))
    = Some (JInt (Account.next_id st))
  ∧ ∀ key, key ∈ ["name"; "email"; "address"; "phone_number"; "date_joined"] →
      json_get key
        (Account.serialize (Account.entity_of (Account.next_id st) (Account.row_of a)))
      = json_get key (Account.serialize a).
Proof.
  intros Hct Hdata Hd. split_and!.
  - by rewrite (create_checked _ _ Hct), Hdata, (deserialize_serialize _ _ _ Hd).
  - reflexivity.
  - intros key Hkey.
    repeat (apply elem_of_cons in Hkey as [->|Hkey]); try reflexivity.
    by apply elem_of_nil in Hkey.
Qed.

(** X11.  A PUT to a stored id of the serialization of an entity that
    carries that id (and whose date survives printing and parsing) is
    answered 200 with a body equal to the payload sent, and the row holds
    the entity's fields afterwards. *)
Theorem update_from_serialized request account_id (a : Account.t) st r :
  Account.rows st !! account_id = Some r →
  Account.id a = Some account_id →
  json_payload request = inr (Account.serialize a) →
  round_trips (Account.date_joined a) →
  routes.app (routes.PUT_account account_id) request st
  = (replaced account_id a st, respond (jsonify (Account.serialize a), 200))
  ∧ Account.rows (replaced account_id a st) !! account_id = Some (Account.row_of a).
Proof.
  intros Hr Hid Hdata Hd. split; [|simpl; apply lookup_insert_eq].
  rewrite (update_found _ _ _ _ Hr), Hdata, (deserialize_serialize _ _ _ Hd).
  by rewrite bool_decide_eq_true_2.
Qed.

(** X12.  GET /accounts lists stored accounts only: every entry of the
    array is the serialization of a row of the table under its key. *)
Theorem list_accounts_only_stored request st :
  ∃ l, (routes.app routes.GET_accounts request st).2
       = respond (jsonify (JArray l), 200)
       ∧ ∀ j, j ∈ l →
           ∃ k r, Account.rows st !! k = Some r
                  ∧ j = Account.serialize (Account.entity_of k r).
Proof.
  eexists. rewrite list_all. split; [reflexivity|].
  intros j Hj.
  apply list_elem_of_fmap_1 in Hj as (a & -> & Ha).
  apply list_elem_of_fmap_1 in Ha as ([k r] & -> & Hkr).
  apply elem_of_map_to_list in Hkr. eauto.
Qed.

(** X13.  Whatever requests are served, in whatever order, starting from
    the empty store: the keys in use stay positive and below the key
    sequence, so id 0 is never stored and GET /accounts/0 is answered
    404. *)
Theorem served_store_ok (reqs : list (routes.Endpoint * Request)) request :
  store_ok (routes.serve reqs Account.empty_store).1
  ∧ Account.rows (routes.serve reqs Account.empty_store).1 !! 0 = None
  ∧ status_code (routes.app (routes.GET_account 0) request
                   (routes.serve reqs Account.empty_store).1).2 = 404.
Proof.
  pose proof (store_ok_serve reqs Account.empty_store store_ok_empty) as Hok.
  assert (Hzero : Account.rows (routes.serve reqs Account.empty_store).1 !! 0 = None).
  { destruct (Account.rows (routes.serve reqs Account.empty_store).1 !! 0) eqn:E;
      [|done].
    destruct Hok as [_ Hok]. specialize (Hok 0 (mk_is_Some _ _ E)). lia. }
  split_and!; [done|done|]. by rewrite (read_absent _ _ _ Hzero).
Qed.

End more_properties.

(** ** The test suite's helper *)

Section helper_facts.
Context `{DateLib}.

Implicit Types (st : Account.Store) (built : list (date * Account.t)).

(** One posted factory account. *)
Lemma client_post_created (now : date) (a : Account.t) st :
  round_trips (Account.date_joined a) →
  routes.app routes.POST_accounts
    (test_routes.client_post now (Account.serialize a)) st
  = (inserted a st,
     make_response
       (jsonify (Account.serialize
                   (Account.entity_of (Account.next_id st) (Account.row_of a))))
       status.HTTP_201_CREATED
       [("Location",
         read_url (test_routes.client_post now (Account.serialize a))
           (Account.next_id st))]).
Proof.
  intros Hd. rewrite create_checked by reflexivity.
  unfold test_routes.client_post at 1 2 3. cbn [json_payload today].
  by rewrite (deserialize_serialize _ _ _ Hd).
Qed.

(** The helper never fails on accounts whose dates survive printing and
    parsing; it stores one row per account under consecutive keys, keeps
    the rows that were there, and returns the accounts with those keys. *)
Lemma create_accounts_helper_run built st :
  store_ok st →
  Forall (λ ta, round_trips (Account.date_joined ta.2)) built →
  ∃ st' accounts,
    test_routes._create_accounts built st = (st', inr accounts)
    ∧ store_ok st'
    ∧ length accounts = length built
    ∧ Account.next_id st' = Account.next_id st + Z.of_nat (length built)
    ∧ size (Account.rows st') = (size (Account.rows st) + length built)%nat
    ∧ (∀ k r, Account.rows st !! k = Some r → Account.rows st' !! k = Some r)
    ∧ (∀ (i : nat) ta, built !! i = Some ta →
         accounts !! i
         = Some (Account.entity_of (Account.next_id st + Z.of_nat i) (Account.row_of ta.2))
         ∧ Account.rows st' !! (Account.next_id st + Z.of_nat i) = Some (Account.row_of ta.2)).
Proof.
  intros Hok Hall. revert st Hok.
  induction Hall as [|[now a] built Hd _ IH]; intros st Hok.
  - exists st, []. simpl. split_and!; try done; lia.
  - simpl in Hd.
    destruct (IH (inserted a st) (store_ok_inserted a st Hok))
      as (st' & accounts & Hrun & Hok' & Hlen & Hnext & Hsize & Hkeep & Hnth).
    exists st', (Account.entity_of (Account.next_id st) (Account.row_of a) :: accounts).
    assert (Hhead : Account.rows st' !! Account.next_id st = Some (Account.row_of a)).
    { apply Hkeep. simpl. apply lookup_insert_eq. }
    split_and!.
    + cbn [test_routes._create_accounts]. unfold mbind at 1.
      unfold Handler_bind, bind. rewrite (client_post_created now a st Hd).
      cbn [fst snd make_response status_code].
      rewrite bool_decide_eq_true_2 by reflexivity.
      replace (test_routes.response_json _ ≫= json_get "id")
        with (Some (JInt (Account.next_id st))) by reflexivity.
      unfold mbind, Handler_bind, bind. rewrite Hrun. reflexivity.
    + exact Hok'.
    + simpl. by rewrite Hlen.
    + rewrite Hnext. simpl. lia.
    + rewrite Hsize. simpl.
      rewrite (map_size_insert_None _ _ _ (store_ok_next_free st Hok)). lia.
    + intros k r Hr. apply Hkeep. simpl. rewrite lookup_insert_ne; [done|].
      intros Heq. rewrite <- Heq, (store_ok_next_free _ Hok) in Hr. discriminate.
    + intros [|i] ta Hta; simpl in Hta.
      * injection Hta as <-. simpl. rewrite Z.add_0_r. by split.
      * destruct (Hnth i ta Hta) as [Hacc Hrow]. simpl in Hacc, Hrow.
        replace (Account.next_id st + Z.of_nat (S i)) with (Account.next_id st + 1 + Z.of_nat i) by lia.
        by split.
Qed.

(** X14.  On a store whose keys in use lie below the key sequence, the
    test helper [_create_accounts] never trips its assertion for accounts
    whose dates survive printing and parsing: every POST is answered 201,
    one row is stored per account, and the accounts come back in order with
    their fields as built and consecutive ids from the key sequence,
    whatever id the factory gave them. *)
Theorem create_accounts_helper_succeeds built st :
  store_ok st →
  Forall (λ ta, round_trips (Account.date_joined ta.2)) built →
  ∃ st' accounts,
    test_routes._create_accounts built st = (st', inr accounts)
    ∧ length accounts = length built
    ∧ size (Account.rows st') = (size (Account.rows st) + length built)%nat
    ∧ ∀ (i : nat) ta, built !! i = Some ta →
        accounts !! i
        = Some (Account.entity_of (Account.next_id st + Z.of_nat i)
                  (Account.row_of ta.2)).
Proof.
  intros Hok Hall.
  destruct (create_accounts_helper_run built st Hok Hall)
    as (st' & accounts & Hrun & _ & Hlen & _ & Hsize & _ & Hnth).
  exists st', accounts. split_and!; try done.
  intros i ta Hta. by destruct (Hnth i ta Hta).
Qed.

(** X15.  After the test helper has run from the empty store, every account
    it returned can be read back: a GET of its id is answered 200 with the
    account's serialization, and GET /accounts lists as many entries as
    accounts were built. *)
Theorem created_accounts_read_back built (request : Request) :
  Forall (λ ta, round_trips (Account.date_joined ta.2)) built →
  ∃ st' accounts,
    test_routes._create_accounts built Account.empty_store = (st', inr accounts)
    ∧ (∀ a, a ∈ accounts →
         ∃ k, Account.id a = Some k
              ∧ routes.app (routes.GET_account k) request st'
                = (st', respond (jsonify (Account.serialize a), 200)))
    ∧ ∃ l, (routes.app routes.GET_accounts request st').2
           = respond (jsonify (JArray l), 200)
           ∧ length l = length built.
Proof.
  intros Hall.
  destruct (create_accounts_helper_run built Account.empty_store store_ok_empty Hall)
    as (st' & accounts & Hrun & _ & Hlen & _ & Hsize & _ & Hnth).
  exists st', accounts. split_and!; [done| |].
  - intros a Ha. apply list_elem_of_lookup in Ha as [i Hi].
    assert (i < length built)%nat as Hlt
      by (rewrite <- Hlen; by apply lookup_lt_Some in Hi).
    apply lookup_lt_is_Some in Hlt as [ta Hta].
    destruct (Hnth i ta Hta) as [Hacc Hrow].
    rewrite Hi in Hacc. injection Hacc as ->.
    eexists. split; [reflexivity|]. by apply read_found.
  - eexists. rewrite list_all. split; [reflexivity|].
    rewrite !length_fmap, length_map_to_list, Hsize. simpl.
    by rewrite map_size_empty.
Qed.

End helper_facts.

(** ** The further properties at concrete requests *)

Section more_instances.
Import Samples.

Lemma one_account_ok : store_ok one_account.
Proof. apply store_ok_app, store_ok_empty. Qed.

Lemma reads_never_mutate_witness :
  (routes.app (routes.GET_account 1) (json_request joe) one_account).1 = one_account.
Proof.
  exact (proj1 (reads_never_mutate (routes.GET_account 1) (json_request joe)
                  one_account eq_refl)).
Defined.

Lemma create_keeps_stored_rows_witness :
  Account.rows one_account !! 1 = Some joe_row
  ∧ Account.rows
      (routes.app routes.POST_accounts (json_request (joe_as 9)) one_account).1 !! 1
    = Some joe_row.
Proof.
  assert (Hrow : Account.rows one_account !! 1 = Some joe_row)
    by (vm_compute; reflexivity).
  split; [exact Hrow|].
  exact (create_keeps_stored_rows (json_request (joe_as 9)) one_account 1 joe_row
           one_account_ok Hrow).
Defined.

Lemma update_then_read_witness :
  routes.app (routes.PUT_account 1) (json_request (joe_as 1)) one_account
  = (replaced 1 (joe_foo 1) one_account,
     respond (jsonify (Account.serialize (joe_foo 1)), 200))
  ∧ routes.app (routes.GET_account 1) (json_request joe)
      (replaced 1 (joe_foo 1) one_account)
    = (replaced 1 (joe_foo 1) one_account,
       respond (jsonify (Account.serialize (joe_foo 1)), 200)).
Proof.
  apply (update_then_read (json_request (joe_as 1)) (json_request joe) 1 one_account
           joe_row (joe_as 1) (joe_foo 1)).
  - vm_compute; reflexivity.
  - reflexivity.
  - vm_compute; reflexivity.
  - reflexivity.
Defined.

Lemma create_from_serialized_witness :
  routes.app routes.POST_accounts (json_request (Account.serialize ann)) one_account
  = (inserted ann one_account,
     make_response
       (jsonify (Account.serialize (Account.entity_of 2 (Account.row_of ann))))
       201
       [("Location", read_url (json_request (Account.serialize ann)) 2)]).
Proof.
  refine (proj1 (create_from_serialized (json_request (Account.serialize ann)) ann
                   one_account _ _ _)).
  - vm_compute; reflexivity.
  - reflexivity.
  - vm_compute; reflexivity.
Defined.

Lemma update_from_serialized_witness :
  routes.app (routes.PUT_account 1)
    (json_request (Account.serialize (Account.entity_of 1 (Account.row_of ann))))
    one_account
  = (replaced 1 (Account.entity_of 1 (Account.row_of ann)) one_account,
     respond (jsonify (Account.serialize (Account.entity_of 1 (Account.row_of ann))),
              200)).
Proof.
  refine (proj1 (update_from_serialized
                   (json_request
                      (Account.serialize (Account.entity_of 1 (Account.row_of ann))))
                   1 (Account.entity_of 1 (Account.row_of ann)) one_account joe_row
                   _ _ _ _)).
  - vm_compute; reflexivity.
  - reflexivity.
  - reflexivity.
  - vm_compute; reflexivity.
Defined.

Lemma two_built_round_trip :
  Forall (λ ta : @date iso_dates * @Account.t iso_dates,
            round_trips (Account.date_joined ta.2)) two_built.
Proof. repeat constructor. Qed.

Lemma create_accounts_helper_succeeds_witness :
  ∃ st' accounts,
    test_routes._create_accounts two_built one_account = (st', inr accounts)
    ∧ length accounts = length two_built
    ∧ size (Account.rows st') = (size (Account.rows one_account) + length two_built)%nat
    ∧ ∀ (i : nat) ta, two_built !! i = Some ta →
        accounts !! i
        = Some (Account.entity_of (Account.next_id one_account + Z.of_nat i)
                  (Account.row_of ta.2)).
Proof.
  exact (create_accounts_helper_succeeds two_built one_account one_account_ok
           two_built_round_trip).
Defined.

Lemma created_accounts_read_back_witness :
  ∃ st' accounts,
    test_routes._create_accounts two_built Account.empty_store = (st', inr accounts)
    ∧ (∀ a, a ∈ accounts →
         ∃ k, Account.id a = Some k
              ∧ routes.app (routes.GET_account k) (json_request joe) st'
                = (st', respond (jsonify (Account.serialize a), 200)))
    ∧ ∃ l, (routes.app routes.GET_accounts (json_request joe) st').2
           = respond (jsonify (JArray l), 200)
           ∧ length l = length two_built.
Proof.
  exact (created_accounts_read_back two_built (json_request joe) two_built_round_trip).
Defined.

(** The helper on two accounts, run: the ids come from the sequence, not
    from the factory. *)
Example helper_on_two_accounts :
  match (test_routes._create_accounts two_built Account.empty_store).2 with
  | inr accounts => Some (Account.id <$> accounts)
  | inl _ => None
  end
  = Some [Some 1; Some 2].
Proof. vm_compute; reflexivity. Qed.

(** An empty Content-Type header is refused even when the empty string is
    the wanted media type. *)
Example empty_content_type_refused :
  (routes.check_content_type (request_with (Some "") (inr joe)) "" one_account).2
  = inl (HTTPException 415 "Content-Type must be ").
Proof. vm_compute; reflexivity. Qed.

End more_instances.
